(** * The auto configurator's base configuration class [Basic]

    A shallow embedding of
    [nemo/collections/llm/tools/auto_configurator/base_configs/basic.py]:
    the Python values the class handles, the exceptions its code can raise,
    the object with its attributes, the constructor and the six public
    methods, followed by the properties of the class. *)

From Stdlib Require Import ZArith.
From Stdlib Require Import Floats.PrimFloat Floats.SpecFloat Floats.FloatOps.
From stdpp Require Import gmap strings list pretty.

Set Warnings "-inexact-float,-register-all".
Local Open Scope Z_scope.

(** ** Python values, exceptions and built-ins *)

(** The exceptions the code of [Basic] can reach: [len] of an object that has
    no length, and the true division of an integer by zero. *)
Inductive PyExc : Type :=
| TypeError
| ZeroDivisionError.

(** The outcome of evaluating Python code: a value, or a raised exception that
    propagates to the caller. *)
Inductive Result (A : Type) : Type :=
| Ok (a : A)
| Raise (e : PyExc).
Arguments Ok {A} a.
Arguments Raise {A} e.

(** The values a runner configuration holds: [None], booleans, integers
    (unbounded), floats (IEEE binary64), strings (a sequence of characters,
    one [ascii] each) and lists. *)
Inductive PyVal : Type :=
| PyNone
| PyBool (b : bool)
| PyInt (z : Z)
| PyFloat (x : float)
| PyStr (s : string)
| PyList (l : list PyVal).

(** Truth value testing, as [not v] and [if v] use it: [None], [False], zero
    of a numeric type, the empty string and the empty list are false. *)
Definition truthy (v : PyVal) : bool :=
  match v with
  | PyNone => false
  | PyBool b => b
  | PyInt z => negb (z =? 0)
  | PyFloat x => negb (PrimFloat.eqb x 0%float)
  | PyStr s => negb (String.eqb s "")
  | PyList l => match l with [] => false | _ :: _ => true end
  end.

(** [len(v)]: defined on strings and lists, a [TypeError] on the others. *)
Definition len (v : PyVal) : Result Z :=
  match v with
  | PyStr s => Ok (Z.of_nat (String.length s))
  | PyList l => Ok (Z.of_nat (length l))
  | PyNone | PyBool _ | PyInt _ | PyFloat _ => Raise TypeError
  end.

(** The binary64 value nearest to an integer (ties to even). *)
Definition float_of_Z (n : Z) : float :=
  SF2Prim (binary_normalize prec emax n 0 false).

(** [a / b] on integers: [ZeroDivisionError] for [b = 0], otherwise the
    quotient as a float. Both conversions are exact up to [2^53] in absolute
    value, where the result is the correctly rounded quotient. *)
Definition int_truediv (a b : Z) : Result float :=
  if b =? 0 then Raise ZeroDivisionError
  else Ok (PrimFloat.div (float_of_Z a) (float_of_Z b)).

(** [float(x)] of a float (or of a numpy float64 scalar) is the same number. *)
Definition float_ (x : float) : float := x.

(** [[v] * n]: the list of [n] references to [v], empty for [n <= 0]. *)
Definition list_mul (v : PyVal) (n : Z) : list PyVal := replicate (Z.to_nat n) v.

(** [d.get(key)]: the value stored under [key], [None] when the key is
    missing. It never raises. *)
Definition dict_get (d : gmap string PyVal) (key : string) : PyVal :=
  match d !! key with
  | Some v => v
  | None => PyNone
  end.

(** A dictionary display [{k1: v1, ..., kn: vn}]: the items are stored from
    left to right, so a later item replaces an earlier one with the same key. *)
Definition dict (items : list (string * PyVal)) : gmap string PyVal :=
  foldl (fun d kv => <[kv.1 := kv.2]> d) ∅ items.

(** Replacement fields of an f-string with an empty format specification:
    [format(v, "")], which is [str(v)] for the types below. *)
Class Format (A : Type) : Type := format : A -> string.

Global Instance format_str : Format string := fun s => s.
Global Instance format_int : Format Z := fun z => pretty z.
Global Instance format_optional {A : Type} `{Format A} : Format (option A) :=
  fun o => match o with
           | Some a => format a
           | None => "None"
           end.

(** ** numpy *)

Module np.

Definition two52 : float := 4503599627370496%float.

(** [rint]: the nearest integral float, ties to even. Below [2^52] in
    absolute value, adding and subtracting [2^52] in the direction of the
    sign rounds to an integer; above, every float is integral. A zero result
    keeps the sign of the argument. *)
Definition rint (x : float) : float :=
  if PrimFloat.ltb (PrimFloat.abs x) two52 then
    if PrimFloat.ltb x 0%float then
      PrimFloat.opp (PrimFloat.abs (PrimFloat.add (PrimFloat.sub x two52) two52))
    else if PrimFloat.eqb x 0%float then x
    else PrimFloat.sub (PrimFloat.add x two52) two52
  else x.

Definition power_of_ten (n : Z) : float := float_of_Z (10 ^ n).

(** [np.round(x, decimals)] on a float. numpy documents it, for
    [decimals >= 0], as
    [np.true_divide(np.rint(x * 10**decimals), 10**decimals)]: scale by the
    power of ten, round to the nearest integer with [rint], and scale back.
    For negative [decimals] the scaling is the other way round. *)
Definition round (x : float) (decimals : Z) : float :=
  if 0 <=? decimals then
    PrimFloat.div (rint (PrimFloat.mul x (power_of_ten decimals))) (power_of_ten decimals)
  else
    PrimFloat.mul (rint (PrimFloat.div x (power_of_ten (- decimals)))) (power_of_ten (- decimals)).

End np.

(** ** The optimizer configuration *)

(** Modelled from the spec: [Config] ([nemo.collections.llm.utils]) and
    [OptimizerConfig] ([megatron.core.optimizer]) are not part of the source
    at hand. [Config(OptimizerConfig, k1=v1, ...)] is taken as the record of
    the keyword arguments it is given, which is what the spec calls the
    optimizer configuration record. *)
Record OptimizerConfig : Type := Config {
  optimizer : string;
  lr : float;
  min_lr : float;
  use_distributed_optimizer : bool;
  bf16 : bool;
  adam_beta1 : float;
  adam_beta2 : float;
  overlap_grad_reduce : bool;
  overlap_param_gather : bool
}.

(** ** The class [Basic] *)

Module Basic.

(** An instance and its attributes. [name], [version], [size] and [measure]
    have the types the constructor declares for them ([None] allowed); the
    attributes read from [cfg] hold whatever value the dictionary has. *)
Record t : Type := mk {
  name : option string;
  version : option Z;
  size : option Z;
  measure : option string;
  cfg : gmap string PyVal;
  num_nodes : PyVal;
  num_gpus : PyVal;
  max_steps : PyVal;
  seq_length : PyVal;
  global_batch_size : PyVal;
  tokenizer_path : PyVal;
  data_paths : PyVal;
  weights : PyVal
}.

(** Attribute assignment [self.a = v], one function per attribute. *)
Definition set_name v (s : t) : t :=
  mk v (version s) (size s) (measure s) (cfg s) (num_nodes s) (num_gpus s) (max_steps s)
     (seq_length s) (global_batch_size s) (tokenizer_path s) (data_paths s) (weights s).
Definition set_version v (s : t) : t :=
  mk (name s) v (size s) (measure s) (cfg s) (num_nodes s) (num_gpus s) (max_steps s)
     (seq_length s) (global_batch_size s) (tokenizer_path s) (data_paths s) (weights s).
Definition set_size v (s : t) : t :=
  mk (name s) (version s) v (measure s) (cfg s) (num_nodes s) (num_gpus s) (max_steps s)
     (seq_length s) (global_batch_size s) (tokenizer_path s) (data_paths s) (weights s).
Definition set_measure v (s : t) : t :=
  mk (name s) (version s) (size s) v (cfg s) (num_nodes s) (num_gpus s) (max_steps s)
     (seq_length s) (global_batch_size s) (tokenizer_path s) (data_paths s) (weights s).
Definition set_cfg v (s : t) : t :=
  mk (name s) (version s) (size s) (measure s) v (num_nodes s) (num_gpus s) (max_steps s)
     (seq_length s) (global_batch_size s) (tokenizer_path s) (data_paths s) (weights s).
Definition set_num_nodes v (s : t) : t :=
  mk (name s) (version s) (size s) (measure s) (cfg s) v (num_gpus s) (max_steps s)
     (seq_length s) (global_batch_size s) (tokenizer_path s) (data_paths s) (weights s).
Definition set_num_gpus v (s : t) : t :=
  mk (name s) (version s) (size s) (measure s) (cfg s) (num_nodes s) v (max_steps s)
     (seq_length s) (global_batch_size s) (tokenizer_path s) (data_paths s) (weights s).
Definition set_max_steps v (s : t) : t :=
  mk (name s) (version s) (size s) (measure s) (cfg s) (num_nodes s) (num_gpus s) v
     (seq_length s) (global_batch_size s) (tokenizer_path s) (data_paths s) (weights s).
Definition set_seq_length v (s : t) : t :=
  mk (name s) (version s) (size s) (measure s) (cfg s) (num_nodes s) (num_gpus s) (max_steps s)
     v (global_batch_size s) (tokenizer_path s) (data_paths s) (weights s).
Definition set_global_batch_size v (s : t) : t :=
  mk (name s) (version s) (size s) (measure s) (cfg s) (num_nodes s) (num_gpus s) (max_steps s)
     (seq_length s) v (tokenizer_path s) (data_paths s) (weights s).
Definition set_tokenizer_path v (s : t) : t :=
  mk (name s) (version s) (size s) (measure s) (cfg s) (num_nodes s) (num_gpus s) (max_steps s)
     (seq_length s) (global_batch_size s) v (data_paths s) (weights s).
Definition set_data_paths v (s : t) : t :=
  mk (name s) (version s) (size s) (measure s) (cfg s) (num_nodes s) (num_gpus s) (max_steps s)
     (seq_length s) (global_batch_size s) (tokenizer_path s) v (weights s).
Definition set_weights v (s : t) : t :=
  mk (name s) (version s) (size s) (measure s) (cfg s) (num_nodes s) (num_gpus s) (max_steps s)
     (seq_length s) (global_batch_size s) (tokenizer_path s) (data_paths s) v.

(** A method body: it runs on the instance [self], and returns a value
    together with the instance as the body leaves it, or raises. *)
Definition Method (A : Type) : Type := t -> Result (A * t).

Definition ret {A : Type} (a : A) : Method A := fun self => Ok (a, self).

Definition bind {A B : Type} (m : Method A) (k : A -> Method B) : Method B :=
  fun self =>
    match m self with
    | Ok (a, self') => k a self'
    | Raise e => Raise e
    end.

(** Reading [self.a]. *)
Definition getattr {A : Type} (a : t -> A) : Method A := fun self => Ok (a self, self).

(** Writing [self.a = v], with the attribute's assignment function. *)
Definition setattr (assign : t -> t) : Method unit := fun self => Ok (tt, assign self).

(** A built-in call inside a method: its exception propagates. *)
Definition call {A : Type} (r : Result A) : Method A :=
  fun self =>
    match r with
    | Ok a => Ok (a, self)
    | Raise e => Raise e
    end.

Notation "'let*' x ':=' m 'in' k" := (bind m (fun x => k))
  (at level 10, x name, m at level 100, k at level 200).
Notation "m1 '>>' m2" := (bind m1 (fun _ => m2))
  (at level 90, right associativity).

(** [_get_data_weights]: the weights for the train dataset. *)
Definition _get_data_weights : Method PyVal :=
  let* self_data_paths := getattr data_paths in
  if negb (truthy self_data_paths) then ret PyNone
  else
    let* datafiles_num := call (len self_data_paths) in
    let* quotient := call (int_truediv 1 datafiles_num) in
    let weight := np.round quotient 2 in
    let weights := list_mul (PyFloat (float_ weight)) datafiles_num in
    ret (PyList weights).

(** [__init__]: the assignments of the constructor's body, in its order. *)
Definition __init__ (name : option string) (version : option Z) (size : option Z)
    (measure : option string) (cfg : gmap string PyVal) : Method unit :=
  setattr (set_name name) >>
  setattr (set_version version) >>
  setattr (set_size size) >>
  setattr (set_measure measure) >>
  setattr (set_cfg cfg) >>
  setattr (set_num_nodes (dict_get cfg "num_nodes")) >>
  setattr (set_num_gpus (dict_get cfg "gpu_count")) >>
  setattr (set_max_steps (dict_get cfg "max_steps_per_run")) >>
  setattr (set_seq_length (dict_get cfg "seq_length")) >>
  setattr (set_global_batch_size (dict_get cfg "global_batch_size")) >>
  setattr (set_tokenizer_path (dict_get cfg "tokenizer_path")) >>
  setattr (set_data_paths (dict_get cfg "data_paths")) >>
  let* weights := _get_data_weights in
  setattr (set_weights weights).

(** The instance before [__init__] runs. No attribute is assigned yet; the
    constructor assigns each one before any code reads it. *)
Definition blank : t :=
  mk None None None None ∅ PyNone PyNone PyNone PyNone PyNone PyNone PyNone PyNone.

(** [Basic(name, version, size, measure, cfg)]: the instance [__init__]
    leaves, or the exception it raises. *)
Definition new (name : option string) (version : option Z) (size : option Z)
    (measure : option string) (cfg : gmap string PyVal) : Result t :=
  match __init__ name version size measure cfg blank with
  | Ok (_, self) => Ok self
  | Raise e => Raise e
  end.

(** The defaults of the constructor's parameters. *)
Definition default_measure : option string := Some "B".
Definition default_cfg : gmap string PyVal := ∅.

(** [model_config] and [tokenizer_config]: the body is the expression
    statement [None]; the call returns [None]. *)
Definition model_config : Method PyVal := ret PyNone.

Definition tokenizer_config : Method PyVal := ret PyNone.

(** [get_optim_config]: the optimizer configuration. *)
Definition get_optim_config : Method OptimizerConfig :=
  let optim_config :=
    {| optimizer := "adam";
       lr := 1e-4%float;
       min_lr := 1e-5%float;
       use_distributed_optimizer := true;
       bf16 := true;
       adam_beta1 := 0.9%float;
       adam_beta2 := 0.95%float;
       overlap_grad_reduce := false;
       overlap_param_gather := true |} in
  ret optim_config.

(** [get_trainer_config]: the configuration of the PTL trainer. *)
Definition get_trainer_config : Method (gmap string PyVal) :=
  let* self_num_nodes := getattr num_nodes in
  let* self_num_gpus := getattr num_gpus in
  let* self_max_steps := getattr max_steps in
  let* self_max_steps' := getattr max_steps in
  let trainer_config := dict [
    ("accelerator", PyStr "gpu");
    ("precision", PyStr "bf16");
    ("logger", PyBool false);
    ("enable_checkpointing", PyBool false);
    ("use_distributed_sampler", PyBool false);
    ("max_epochs", PyNone);
    ("log_every_n_steps", PyInt 1);
    ("limit_val_batches", PyInt 1);
    ("limit_test_batches", PyInt 1);
    ("accumulate_grad_batches", PyInt 1);
    ("gradient_clip_val", PyFloat 1.0%float);
    ("num_nodes", self_num_nodes);
    ("devices", self_num_gpus);
    ("max_steps", self_max_steps);
    ("val_check_interval", self_max_steps')
  ] in
  ret trainer_config.

(** [get_data_config]: the dataset configuration. *)
Definition get_data_config : Method (gmap string PyVal) :=
  let* self_data_paths := getattr data_paths in
  let* self_weights := getattr weights in
  let* self_seq_length := getattr seq_length in
  let* self_global_batch_size := getattr global_batch_size in
  let data_config := dict [
    ("paths", self_data_paths);
    ("weights", self_weights);
    ("seq_length", self_seq_length);
    ("global_batch_size", self_global_batch_size);
    ("num_workers", PyInt 2);
    ("split", PyStr "99990,8,2");
    ("index_mapping_dir", PyNone)
  ] in
  ret data_config.

(** [get_run_config]: the configuration of the cluster job. *)
Definition get_run_config : Method (gmap string PyVal) :=
  let* self_name := getattr name in
  let* self_size := getattr size in
  let* self_measure := getattr measure in
  let run_config := dict [
    ("name", PyStr (format self_name +:+ "_" +:+ format self_size +:+ format self_measure));
    ("results_dir", PyNone);
    ("time_limit", PyStr "0-00:30:00")
  ] in
  ret run_config.

End Basic.

(** ** The specification's terms *)

(** The spec's [round(1/n, 2)]: the equal share of [n] datasets, rounded to
    two decimal places as the code rounds it. *)
Definition equal_split_weight (n : Z) : float :=
  np.round (PrimFloat.div (float_of_Z 1) (float_of_Z n)) 2.

(** The spec's recognized keys of [cfg], each with the attribute that the
    constructor fills from it. *)
Definition recognized_keys : list (string * (Basic.t -> PyVal)) :=
  [ ("num_nodes", Basic.num_nodes);
    ("gpu_count", Basic.num_gpus);
    ("max_steps_per_run", Basic.max_steps);
    ("seq_length", Basic.seq_length);
    ("global_batch_size", Basic.global_batch_size);
    ("tokenizer_path", Basic.tokenizer_path);
    ("data_paths", Basic.data_paths) ].

(** [dataPaths] as the spec's data model has it: absent, or a sequence (a
    value with a length). *)
Definition absent_or_sequence (v : PyVal) : Prop :=
  v = PyNone \/ exists n : Z, len v = Ok n.

(** A method that returns on every instance and leaves it as it was. *)
Definition read_only {A : Type} (m : Basic.Method A) : Prop :=
  forall self : Basic.t, exists a : A, m self = Ok (a, self).

(** The six operations of an instance, and a caller that performs them one
    after the other, dropping what they return. *)
Inductive operation : Type :=
| ModelConfig
| TokenizerConfig
| GetOptimConfig
| GetTrainerConfig
| GetDataConfig
| GetRunConfig.

Definition afterwards {A : Type} (m : Basic.Method A) (self : Basic.t) : Result Basic.t :=
  match m self with
  | Ok (_, self') => Ok self'
  | Raise e => Raise e
  end.

Definition perform (op : operation) : Basic.t -> Result Basic.t :=
  match op with
  | ModelConfig => afterwards Basic.model_config
  | TokenizerConfig => afterwards Basic.tokenizer_config
  | GetOptimConfig => afterwards Basic.get_optim_config
  | GetTrainerConfig => afterwards Basic.get_trainer_config
  | GetDataConfig => afterwards Basic.get_data_config
  | GetRunConfig => afterwards Basic.get_run_config
  end.

Fixpoint perform_all (ops : list operation) (self : Basic.t) : Result Basic.t :=
  match ops with
  | [] => Ok self
  | op :: ops' =>
      match perform op self with
      | Ok self' => perform_all ops' self'
      | Raise e => Raise e
      end
  end.

(** The instance that the constructor's assignments build from its
    arguments, with [w] for the weights. [assigned ... PyNone] is the instance
    on which the last line of the constructor computes the weights. *)
Definition assigned (name : option string) (version : option Z) (size : option Z)
    (measure : option string) (cfg : gmap string PyVal) (w : PyVal) : Basic.t :=
  Basic.mk name version size measure cfg
    (dict_get cfg "num_nodes") (dict_get cfg "gpu_count") (dict_get cfg "max_steps_per_run")
    (dict_get cfg "seq_length") (dict_get cfg "global_batch_size")
    (dict_get cfg "tokenizer_path") (dict_get cfg "data_paths") w.

(** The spec's end-to-end example: the configuration, and the instance the
    spec expects for it. *)
Definition example_cfg : gmap string PyVal :=
  dict [ ("num_nodes", PyInt 2); ("gpu_count", PyInt 8); ("max_steps_per_run", PyInt 100);
         ("seq_length", PyInt 2048); ("global_batch_size", PyInt 128);
         ("data_paths", PyList [PyStr "a"; PyStr "b"; PyStr "c"]) ].

Definition example_built : Basic.t :=
  assigned (Some "gpt3") None (Some 5) (Some "B") example_cfg
    (PyList [PyFloat 0.33%float; PyFloat 0.33%float; PyFloat 0.33%float]).

(** Rounding in exact arithmetic: the integer nearest to [a / b] for
    [b > 0], ties to even, and with it the share of [n] datasets in
    hundredths, as the float nearest to that decimal. *)
Definition nearest_even_div (a b : Z) : Z :=
  let q := a / b in
  let r := a mod b in
  if 2 * r <? b then q
  else if b <? 2 * r then q + 1
  else if Z.even q then q else q + 1.

Definition exact_split_weight (n : Z) : float :=
  PrimFloat.div (float_of_Z (nearest_even_div 100 n)) (float_of_Z 100).

(** ** Built-ins *)

Section Builtins.

Lemma dict_get_missing (d : gmap string PyVal) (key : string) :
  d !! key = None -> dict_get d key = PyNone.
Proof. intros H. unfold dict_get. now rewrite H. Qed.

Lemma dict_get_present (d : gmap string PyVal) (key : string) (v : PyVal) :
  d !! key = Some v -> dict_get d key = v.
Proof. intros H. unfold dict_get. now rewrite H. Qed.

Lemma len_nonneg (v : PyVal) (n : Z) : len v = Ok n -> 0 <= n.
Proof. destruct v; simpl; intros H; inversion H; lia. Qed.

(** A value with a length is true exactly when the length is not zero. *)
Lemma truthy_len (v : PyVal) (n : Z) :
  len v = Ok n -> truthy v = negb (n =? 0).
Proof.
  destruct v as [ | | | | s | l]; simpl; intros H; inversion H; subst; clear H.
  - destruct s; reflexivity.
  - destruct l; reflexivity.
Qed.

Lemma truthy_len_pos (v : PyVal) (n : Z) :
  len v = Ok n -> 1 <= n -> truthy v = true.
Proof.
  intros Hlen Hn. rewrite (truthy_len v n Hlen).
  destruct (Z.eqb_spec n 0); [lia | reflexivity].
Qed.

Lemma truthy_len_zero (v : PyVal) : len v = Ok 0 -> truthy v = false.
Proof. intros Hlen. now rewrite (truthy_len v 0 Hlen). Qed.

Lemma int_truediv_nonzero (a b : Z) :
  b <> 0 -> int_truediv a b = Ok (PrimFloat.div (float_of_Z a) (float_of_Z b)).
Proof. intros Hb. unfold int_truediv. destruct (Z.eqb_spec b 0); [lia | reflexivity]. Qed.

Lemma list_mul_length (v : PyVal) (n : Z) : 0 <= n -> Z.of_nat (length (list_mul v n)) = n.
Proof. intros Hn. unfold list_mul. rewrite length_replicate. lia. Qed.

Lemma list_mul_Forall (v : PyVal) (n : Z) : Forall (fun w => w = v) (list_mul v n).
Proof.
  unfold list_mul. induction (Z.to_nat n) as [ | k IH]; simpl; constructor; auto.
Qed.

End Builtins.

(** Running a method body that only reads attributes: the reads unfold to
    the attribute values and the instance is passed along. *)
Ltac run_reads :=
  cbv beta iota zeta delta
    [Basic.get_optim_config Basic.get_trainer_config Basic.get_data_config
     Basic.get_run_config Basic.model_config Basic.tokenizer_config
     Basic.bind Basic.getattr Basic.ret].

(** ** Method bodies that only read *)

Section ReadOnly.

Lemma read_only_ret {A : Type} (a : A) : read_only (Basic.ret a).
Proof. intros self. exists a. reflexivity. Qed.

Lemma read_only_getattr {A : Type} (f : Basic.t -> A) : read_only (Basic.getattr f).
Proof. intros self. exists (f self). reflexivity. Qed.

Lemma read_only_bind {A B : Type} (m : Basic.Method A) (k : A -> Basic.Method B) :
  read_only m -> (forall a, read_only (k a)) -> read_only (Basic.bind m k).
Proof.
  intros Hm Hk self. unfold Basic.bind.
  destruct (Hm self) as [a Ha]. rewrite Ha.
  apply Hk.
Qed.

Lemma read_only_model_config : read_only Basic.model_config.
Proof. apply read_only_ret. Qed.

Lemma read_only_tokenizer_config : read_only Basic.tokenizer_config.
Proof. apply read_only_ret. Qed.

Lemma read_only_get_optim_config : read_only Basic.get_optim_config.
Proof. apply read_only_ret. Qed.

Lemma read_only_get_trainer_config : read_only Basic.get_trainer_config.
Proof.
  unfold Basic.get_trainer_config.
  repeat (apply read_only_bind; [apply read_only_getattr | intros ?]).
  apply read_only_ret.
Qed.

Lemma read_only_get_data_config : read_only Basic.get_data_config.
Proof.
  unfold Basic.get_data_config.
  repeat (apply read_only_bind; [apply read_only_getattr | intros ?]).
  apply read_only_ret.
Qed.

Lemma read_only_get_run_config : read_only Basic.get_run_config.
Proof.
  unfold Basic.get_run_config.
  repeat (apply read_only_bind; [apply read_only_getattr | intros ?]).
  apply read_only_ret.
Qed.

End ReadOnly.

(** ** The data weights and the constructor *)

Section Construction.

Variables (name : option string) (version size : option Z) (measure : option string).
Variable cfg : gmap string PyVal.

(** The three paths through [_get_data_weights], by the value of
    [self.data_paths]. *)
Lemma get_data_weights_falsy (self : Basic.t) :
  truthy (Basic.data_paths self) = false ->
  Basic._get_data_weights self = Ok (PyNone, self).
Proof.
  intros H. unfold Basic._get_data_weights, Basic.bind, Basic.getattr.
  now rewrite H.
Qed.

Lemma get_data_weights_sized (self : Basic.t) (n : Z) :
  len (Basic.data_paths self) = Ok n -> 1 <= n ->
  Basic._get_data_weights self =
    Ok (PyList (list_mul (PyFloat (equal_split_weight n)) n), self).
Proof.
  intros Hlen Hn. unfold Basic._get_data_weights, Basic.bind, Basic.getattr.
  rewrite (truthy_len_pos _ _ Hlen Hn). simpl.
  rewrite Hlen. simpl.
  rewrite int_truediv_nonzero by lia. reflexivity.
Qed.

Lemma get_data_weights_unsized (self : Basic.t) (e : PyExc) :
  truthy (Basic.data_paths self) = true ->
  len (Basic.data_paths self) = Raise e ->
  Basic._get_data_weights self = Raise e.
Proof.
  intros Ht Hlen. unfold Basic._get_data_weights, Basic.bind, Basic.getattr.
  rewrite Ht. simpl. now rewrite Hlen.
Qed.

(** The division in [_get_data_weights] is reached with a non-zero divisor
    only: the method never raises [ZeroDivisionError]. *)
Lemma get_data_weights_no_zero_division (self : Basic.t) :
  Basic._get_data_weights self <> Raise ZeroDivisionError.
Proof.
  destruct (truthy (Basic.data_paths self)) eqn:Ht.
  - destruct (len (Basic.data_paths self)) as [n | e] eqn:Hlen.
    + assert (Hn : 1 <= n).
      { pose proof (len_nonneg _ _ Hlen). pose proof (truthy_len _ _ Hlen) as Hz.
        rewrite Ht in Hz. destruct (Z.eqb_spec n 0); [discriminate | lia]. }
      rewrite (get_data_weights_sized self n Hlen Hn). discriminate.
    + rewrite (get_data_weights_unsized self e Ht Hlen).
      destruct (Basic.data_paths self); simpl in Hlen; inversion Hlen; discriminate.
  - rewrite (get_data_weights_falsy self Ht). discriminate.
Qed.

(** [_get_data_weights] assigns nothing: where it returns, the instance is
    as before. *)
Lemma get_data_weights_frame (self self' : Basic.t) (w : PyVal) :
  Basic._get_data_weights self = Ok (w, self') -> self' = self.
Proof.
  unfold Basic._get_data_weights, Basic.bind, Basic.getattr, Basic.call, Basic.ret.
  destruct (negb (truthy (Basic.data_paths self))).
  - intros H. now inversion H.
  - destruct (len (Basic.data_paths self)) as [n | e]; [ | discriminate].
    destruct (int_truediv 1 n) as [x | e]; [ | discriminate].
    intros H. now inversion H.
Qed.

(** The constructor: the twelve assignments from the arguments, then the
    weights computed on the instance they leave. *)
Lemma new_unfold :
  Basic.new name version size measure cfg =
    match Basic._get_data_weights (assigned name version size measure cfg PyNone) with
    | Ok (w, self) => Ok (Basic.set_weights w self)
    | Raise e => Raise e
    end.
Proof.
  unfold Basic.new, Basic.__init__, Basic.bind, Basic.setattr.
  match goal with
  | |- context [Basic._get_data_weights ?s] =>
      change s with (assigned name version size measure cfg PyNone)
  end.
  destruct (Basic._get_data_weights (assigned name version size measure cfg PyNone))
    as [[w self] | e]; reflexivity.
Qed.

Lemma new_returns (w : PyVal) :
  Basic._get_data_weights (assigned name version size measure cfg PyNone)
    = Ok (w, assigned name version size measure cfg PyNone) ->
  Basic.new name version size measure cfg = Ok (assigned name version size measure cfg w).
Proof. intros H. rewrite new_unfold, H. reflexivity. Qed.

Lemma new_raises (e : PyExc) :
  Basic.new name version size measure cfg = Raise e ->
  Basic._get_data_weights (assigned name version size measure cfg PyNone) = Raise e.
Proof.
  rewrite new_unfold.
  destruct (Basic._get_data_weights (assigned name version size measure cfg PyNone))
    as [[w self] | e']; [discriminate | congruence].
Qed.

(** Every instance the constructor returns has the attributes of
    [assigned], with some value for [weights]. *)
Lemma new_assigned (self : Basic.t) :
  Basic.new name version size measure cfg = Ok self ->
  self = assigned name version size measure cfg (Basic.weights self).
Proof.
  rewrite new_unfold.
  destruct (Basic._get_data_weights (assigned name version size measure cfg PyNone))
    as [[w self'] | e] eqn:Hw; [ | discriminate].
  apply get_data_weights_frame in Hw. subst self'.
  intros H. inversion H. reflexivity.
Qed.

End Construction.

(** ** The data configuration *)

Section DataConfig.

Variable self : Basic.t.

Lemma get_data_config_paths_weights :
  exists d : gmap string PyVal,
    Basic.get_data_config self = Ok (d, self) /\
    d !! "paths" = Some (Basic.data_paths self) /\
    d !! "weights" = Some (Basic.weights self).
Proof.
  run_reads. eexists. split; [reflexivity | ].
  split; reflexivity.
Qed.

End DataConfig.

(** ** Construction by the kind of [data_paths] *)

Section ConstructionCases.

Variables (name : option string) (version size : option Z) (measure : option string).
Variable cfg : gmap string PyVal.

Let before_weights : Basic.t := assigned name version size measure cfg PyNone.

Lemma new_falsy :
  truthy (dict_get cfg "data_paths") = false ->
  Basic.new name version size measure cfg = Ok before_weights.
Proof.
  intros H. apply (new_returns name version size measure cfg PyNone).
  now apply get_data_weights_falsy.
Qed.

Lemma new_sized (n : Z) :
  len (dict_get cfg "data_paths") = Ok n -> 1 <= n ->
  Basic.new name version size measure cfg =
    Ok (assigned name version size measure cfg
          (PyList (list_mul (PyFloat (equal_split_weight n)) n))).
Proof.
  intros Hlen Hn. apply new_returns.
  now apply get_data_weights_sized.
Qed.

Lemma new_absent_or_sequence :
  absent_or_sequence (dict_get cfg "data_paths") ->
  exists self : Basic.t,
    Basic.new name version size measure cfg = Ok self /\
    (len (Basic.data_paths self) = Ok 0 -> Basic.weights self = PyNone).
Proof.
  intros [Hnone | [n Hlen]].
  - exists before_weights. split; [ | reflexivity].
    apply new_falsy. now rewrite Hnone.
  - pose proof (len_nonneg _ _ Hlen) as Hn.
    destruct (Z.eq_dec n 0) as [-> | Hnz].
    + exists before_weights. split; [ | reflexivity].
      apply new_falsy. now apply truthy_len_zero.
    + eexists. split; [apply (new_sized n Hlen); lia | ].
      simpl. rewrite Hlen. intros H. inversion H. lia.
Qed.

(** The constructor raises only what [len] raises on a true value of
    [data_paths]. *)
Lemma new_raises_unsized (e : PyExc) :
  Basic.new name version size measure cfg = Raise e ->
  truthy (dict_get cfg "data_paths") = true /\
  len (dict_get cfg "data_paths") = Raise e.
Proof.
  intros H. apply new_raises in H. fold before_weights in H.
  destruct (truthy (dict_get cfg "data_paths")) eqn:Ht.
  - split; [reflexivity | ].
    destruct (len (dict_get cfg "data_paths")) as [n | e'] eqn:Hlen.
    + assert (Hn : 1 <= n).
      { pose proof (len_nonneg _ _ Hlen). pose proof (truthy_len _ _ Hlen) as Hz.
        rewrite Ht in Hz. destruct (Z.eqb_spec n 0); [discriminate | lia]. }
      rewrite (get_data_weights_sized before_weights n Hlen Hn) in H. discriminate.
    + rewrite (get_data_weights_unsized before_weights e' Ht Hlen) in H. congruence.
  - rewrite (get_data_weights_falsy before_weights Ht) in H. discriminate.
Qed.

Lemma new_no_zero_division :
  Basic.new name version size measure cfg <> Raise ZeroDivisionError.
Proof.
  intros H. apply new_raises in H.
  now apply get_data_weights_no_zero_division in H.
Qed.

End ConstructionCases.

(** ** The data weights: properties of the class *)

(** C1, counterexample: with [data_paths = []] and every other argument at
    its default, the constructor returns: the weights are [None], and no
    division error (nor any other) reaches the caller. *)
Lemma empty_data_paths_constructs :
  Basic.new None None None Basic.default_measure {[ "data_paths" := PyList [] ]}
    = Ok (Basic.mk None None None (Some "B") {[ "data_paths" := PyList [] ]}
            PyNone PyNone PyNone PyNone PyNone PyNone (PyList []) PyNone)
  /\ Basic.new None None None Basic.default_measure {[ "data_paths" := PyList [] ]}
    <> Raise ZeroDivisionError.
Proof. split; [vm_compute; reflexivity | discriminate]. Qed.

(** C1 (amended): computing the data weights never raises a division error,
    whatever [cfg] holds; and when [dataPaths] is absent or a sequence the
    constructor returns an instance, whose weights are absent/null when the
    sequence is empty. *)
Theorem data_weights_no_division_error
    (name : option string) (version size : option Z) (measure : option string)
    (cfg : gmap string PyVal) :
  (forall self : Basic.t, Basic._get_data_weights self <> Raise ZeroDivisionError) /\
  Basic.new name version size measure cfg <> Raise ZeroDivisionError /\
  (absent_or_sequence (dict_get cfg "data_paths") ->
   exists self : Basic.t,
     Basic.new name version size measure cfg = Ok self /\
     (len (Basic.data_paths self) = Ok 0 -> Basic.weights self = PyNone)).
Proof.
  split; [ | split].
  - apply get_data_weights_no_zero_division.
  - apply new_no_zero_division.
  - apply new_absent_or_sequence.
Qed.

Lemma data_weights_no_division_error_witness :
  absent_or_sequence (dict_get {[ "data_paths" := PyList [] ]} "data_paths") /\
  exists self : Basic.t,
    Basic.new (Some "gpt3") None (Some 5) (Some "B") {[ "data_paths" := PyList [] ]} = Ok self /\
    (len (Basic.data_paths self) = Ok 0 -> Basic.weights self = PyNone).
Proof.
  assert (H : absent_or_sequence (dict_get {[ "data_paths" := PyList [] ]} "data_paths")).
  { right. exists 0. reflexivity. }
  split; [exact H | ].
  exact (proj2 (proj2 (data_weights_no_division_error (Some "gpt3") None (Some 5) (Some "B")
                         {[ "data_paths" := PyList [] ]})) H).
Defined.

(** C2: for [data_paths] of length [n >= 1] in [cfg], the constructor returns
    an instance whose weights, which are what [_get_data_weights] returns, are
    a list of exactly [n] elements, each equal to [round(1/n, 2)]; the weights
    and the data paths have the same length. *)
Theorem data_weights_equal_split
    (name : option string) (version size : option Z) (measure : option string)
    (cfg : gmap string PyVal) (v : PyVal) (n : Z) :
  cfg !! "data_paths" = Some v -> len v = Ok n -> 1 <= n ->
  exists (self : Basic.t) (ws : list PyVal),
    Basic.new name version size measure cfg = Ok self /\
    Basic.data_paths self = v /\
    Basic.weights self = PyList ws /\
    Basic._get_data_weights self = Ok (PyList ws, self) /\
    Z.of_nat (length ws) = n /\
    Forall (fun w => w = PyFloat (equal_split_weight n)) ws /\
    len (Basic.weights self) = len (Basic.data_paths self).
Proof.
  intros Hcfg Hlen Hn.
  apply dict_get_present in Hcfg.
  assert (Hlen' : len (dict_get cfg "data_paths") = Ok n) by now rewrite Hcfg.
  eexists. exists (list_mul (PyFloat (equal_split_weight n)) n).
  split; [apply (new_sized name version size measure cfg n Hlen' Hn) | ].
  split; [exact Hcfg | ].
  split; [reflexivity | ].
  split; [now apply get_data_weights_sized | ].
  split; [apply list_mul_length; lia | ].
  split; [apply list_mul_Forall | ].
  simpl. rewrite Hlen'. f_equal. apply list_mul_length. lia.
Qed.

Lemma data_weights_equal_split_witness :
  exists (self : Basic.t) (ws : list PyVal),
    Basic.new (Some "gpt3") None (Some 5) (Some "B")
      {[ "data_paths" := PyList [PyStr "a"; PyStr "b"; PyStr "c"] ]} = Ok self /\
    Basic.data_paths self = PyList [PyStr "a"; PyStr "b"; PyStr "c"] /\
    Basic.weights self = PyList ws /\
    Basic._get_data_weights self = Ok (PyList ws, self) /\
    Z.of_nat (length ws) = 3 /\
    Forall (fun w => w = PyFloat (equal_split_weight 3)) ws /\
    len (Basic.weights self) = len (Basic.data_paths self).
Proof.
  apply (data_weights_equal_split (Some "gpt3") None (Some 5) (Some "B")
           {[ "data_paths" := PyList [PyStr "a"; PyStr "b"; PyStr "c"] ]}
           (PyList [PyStr "a"; PyStr "b"; PyStr "c"]) 3).
  - reflexivity.
  - reflexivity.
  - lia.
Defined.

(** C3: when [cfg] has no [data_paths] key, the constructor returns an
    instance on which [_get_data_weights] returns [None], whose weights are
    [None], and whose data configuration has [None] under both ["paths"] and
    ["weights"]. *)
Theorem absent_data_paths_no_weights
    (name : option string) (version size : option Z) (measure : option string)
    (cfg : gmap string PyVal) :
  cfg !! "data_paths" = None ->
  exists (self : Basic.t) (d : gmap string PyVal),
    Basic.new name version size measure cfg = Ok self /\
    Basic._get_data_weights self = Ok (PyNone, self) /\
    Basic.weights self = PyNone /\
    Basic.get_data_config self = Ok (d, self) /\
    d !! "paths" = Some PyNone /\
    d !! "weights" = Some PyNone.
Proof.
  intros Hcfg. apply dict_get_missing in Hcfg.
  assert (Hfalsy : truthy (dict_get cfg "data_paths") = false) by now rewrite Hcfg.
  destruct (get_data_config_paths_weights (assigned name version size measure cfg PyNone))
    as (d & Hd & Hpaths & Hweights).
  exists (assigned name version size measure cfg PyNone), d.
  split; [now apply new_falsy | ].
  split; [now apply get_data_weights_falsy | ].
  split; [reflexivity | ].
  split; [exact Hd | ].
  split; [ | exact Hweights].
  rewrite Hpaths. simpl. now rewrite Hcfg.
Qed.

Lemma absent_data_paths_no_weights_witness :
  exists (self : Basic.t) (d : gmap string PyVal),
    Basic.new (Some "gpt3") None (Some 5) (Some "B") {[ "seq_length" := PyInt 2048 ]} = Ok self /\
    Basic._get_data_weights self = Ok (PyNone, self) /\
    Basic.weights self = PyNone /\
    Basic.get_data_config self = Ok (d, self) /\
    d !! "paths" = Some PyNone /\
    d !! "weights" = Some PyNone.
Proof.
  apply (absent_data_paths_no_weights (Some "gpt3") None (Some 5) (Some "B")
           {[ "seq_length" := PyInt 2048 ]}).
  reflexivity.
Defined.

(** C10: when [data_paths] is present in [cfg] and empty, the constructor
    returns an instance: [_get_data_weights] returns [None] on it without
    raising, and its data configuration has the empty sequence under
    ["paths"] and [None] under ["weights"]. *)
Theorem empty_data_paths_no_weights
    (name : option string) (version size : option Z) (measure : option string)
    (cfg : gmap string PyVal) (v : PyVal) :
  cfg !! "data_paths" = Some v -> len v = Ok 0 ->
  exists (self : Basic.t) (d : gmap string PyVal),
    Basic.new name version size measure cfg = Ok self /\
    Basic._get_data_weights self = Ok (PyNone, self) /\
    Basic.weights self = PyNone /\
    Basic.data_paths self = v /\
    Basic.get_data_config self = Ok (d, self) /\
    d !! "paths" = Some v /\
    d !! "weights" = Some PyNone.
Proof.
  intros Hcfg Hlen. apply dict_get_present in Hcfg.
  assert (Hfalsy : truthy (dict_get cfg "data_paths") = false).
  { rewrite Hcfg. now apply truthy_len_zero. }
  destruct (get_data_config_paths_weights (assigned name version size measure cfg PyNone))
    as (d & Hd & Hpaths & Hweights).
  exists (assigned name version size measure cfg PyNone), d.
  split; [now apply new_falsy | ].
  split; [now apply get_data_weights_falsy | ].
  split; [reflexivity | ].
  split; [exact Hcfg | ].
  split; [exact Hd | ].
  split; [ | exact Hweights].
  rewrite Hpaths. simpl. now rewrite Hcfg.
Qed.

Lemma empty_data_paths_no_weights_witness :
  exists (self : Basic.t) (d : gmap string PyVal),
    Basic.new None None None (Some "B") {[ "data_paths" := PyList [] ]} = Ok self /\
    Basic._get_data_weights self = Ok (PyNone, self) /\
    Basic.weights self = PyNone /\
    Basic.data_paths self = PyList [] /\
    Basic.get_data_config self = Ok (d, self) /\
    d !! "paths" = Some (PyList []) /\
    d !! "weights" = Some PyNone.
Proof.
  apply (empty_data_paths_no_weights None None None (Some "B")
           {[ "data_paths" := PyList [] ]} (PyList [])).
  - reflexivity.
  - reflexivity.
Defined.

(** ** The configurations: properties of the class *)

(** C4: for an instance with a name, a size and a measure, the run
    configuration has the name formatted as [{name}_{size}{measure}] (the
    size in decimal), [None] as results directory and ["0-00:30:00"] as time
    limit. *)
Theorem run_config_fields (self : Basic.t) (name : string) (size : Z) (measure : string) :
  Basic.name self = Some name ->
  Basic.size self = Some size ->
  Basic.measure self = Some measure ->
  exists d : gmap string PyVal,
    Basic.get_run_config self = Ok (d, self) /\
    d !! "name" = Some (PyStr (name +:+ "_" +:+ pretty size +:+ measure)) /\
    d !! "results_dir" = Some PyNone /\
    d !! "time_limit" = Some (PyStr "0-00:30:00").
Proof.
  intros Hname Hsize Hmeasure. run_reads.
  rewrite Hname, Hsize, Hmeasure.
  eexists. split; [reflexivity | ].
  repeat split; reflexivity.
Qed.

Lemma run_config_fields_witness :
  exists d : gmap string PyVal,
    Basic.get_run_config (assigned (Some "gpt3") None (Some 5) (Some "B") ∅ PyNone)
      = Ok (d, assigned (Some "gpt3") None (Some 5) (Some "B") ∅ PyNone) /\
    d !! "name" = Some (PyStr "gpt3_5B") /\
    d !! "results_dir" = Some PyNone /\
    d !! "time_limit" = Some (PyStr "0-00:30:00").
Proof.
  apply (run_config_fields (assigned (Some "gpt3") None (Some 5) (Some "B") ∅ PyNone)
           "gpt3" 5 "B").
  - reflexivity.
  - reflexivity.
  - reflexivity.
Defined.

(** C5: in the trainer configuration of any instance, ["max_steps"] and
    ["val_check_interval"] both hold the instance's [max_steps], so they are
    equal. *)
Theorem trainer_config_steps_in_sync (self : Basic.t) :
  exists d : gmap string PyVal,
    Basic.get_trainer_config self = Ok (d, self) /\
    d !! "max_steps" = Some (Basic.max_steps self) /\
    d !! "val_check_interval" = Some (Basic.max_steps self) /\
    d !! "max_steps" = d !! "val_check_interval".
Proof.
  run_reads. eexists. split; [reflexivity | ].
  repeat split; reflexivity.
Qed.

(** C6: on any instance, [get_optim_config] returns one and the same record
    of constants: adam, learning rate 1e-4, minimum learning rate 1e-5,
    distributed optimizer and bf16 on, betas 0.9 and 0.95, no overlap of the
    gradient reduction, overlap of the parameter gathering. *)
Theorem optim_config_constant (self : Basic.t) :
  exists c : OptimizerConfig,
    Basic.get_optim_config self = Ok (c, self) /\
    optimizer c = "adam" /\
    lr c = 1e-4%float /\
    min_lr c = 1e-5%float /\
    use_distributed_optimizer c = true /\
    bf16 c = true /\
    adam_beta1 c = 0.9%float /\
    adam_beta2 c = 0.95%float /\
    overlap_grad_reduce c = false /\
    overlap_param_gather c = true /\
    forall self' : Basic.t, Basic.get_optim_config self' = Ok (c, self').
Proof.
  run_reads. eexists. split; [reflexivity | ].
  repeat split; reflexivity.
Qed.

(** C7: the data configuration of any instance holds the instance's data
    paths, weights, sequence length and global batch size, the constants 2
    for the number of workers and ["99990,8,2"] for the split, [None] for the
    index mapping directory, and no other key. *)
Theorem data_config_fields (self : Basic.t) :
  exists d : gmap string PyVal,
    Basic.get_data_config self = Ok (d, self) /\
    d !! "paths" = Some (Basic.data_paths self) /\
    d !! "weights" = Some (Basic.weights self) /\
    d !! "seq_length" = Some (Basic.seq_length self) /\
    d !! "global_batch_size" = Some (Basic.global_batch_size self) /\
    d !! "num_workers" = Some (PyInt 2) /\
    d !! "split" = Some (PyStr "99990,8,2") /\
    d !! "index_mapping_dir" = Some PyNone /\
    dom d = ({[ "paths"; "weights"; "seq_length"; "global_batch_size";
                "num_workers"; "split"; "index_mapping_dir" ]} : gset string).
Proof.
  run_reads. eexists. split; [reflexivity | ].
  repeat split; reflexivity.
Qed.

(** ** Construction and immutability: properties of the class *)

(** C8: the constructor never fails over a missing key. Whatever it raises
    comes from a value that is present under ["data_paths"]; where it
    returns, each recognized attribute holds what [cfg.get] gives, unchecked,
    which is [None] for a missing key; and it returns whenever
    ["data_paths"] is missing. *)
Theorem missing_keys_resolve_to_none
    (name : option string) (version size : option Z) (measure : option string)
    (cfg : gmap string PyVal) :
  (forall e : PyExc,
     Basic.new name version size measure cfg = Raise e ->
     exists v : PyVal, cfg !! "data_paths" = Some v /\ truthy v = true /\ len v = Raise e) /\
  (forall self : Basic.t,
     Basic.new name version size measure cfg = Ok self ->
     Forall (fun ka : string * (Basic.t -> PyVal) =>
               ka.2 self = dict_get cfg ka.1 /\
               (cfg !! ka.1 = None -> ka.2 self = PyNone))
            recognized_keys) /\
  (cfg !! "data_paths" = None ->
   exists self : Basic.t, Basic.new name version size measure cfg = Ok self).
Proof.
  split; [ | split].
  - intros e H. apply new_raises_unsized in H. destruct H as [Ht Hlen].
    unfold dict_get in Ht, Hlen.
    destruct (cfg !! "data_paths") as [v | ]; [ | discriminate].
    exists v. auto.
  - intros self H. apply new_assigned in H. rewrite H.
    unfold recognized_keys.
    repeat constructor; simpl; auto using dict_get_missing.
  - intros H. eexists. apply new_falsy.
    now rewrite (dict_get_missing _ _ H).
Qed.

Lemma missing_keys_resolve_to_none_witness :
  exists self : Basic.t,
    Basic.new None None None Basic.default_measure Basic.default_cfg = Ok self /\
    Forall (fun ka : string * (Basic.t -> PyVal) => ka.2 self = PyNone) recognized_keys.
Proof.
  destruct (missing_keys_resolve_to_none None None None Basic.default_measure Basic.default_cfg)
    as (_ & Hok & Hreturns).
  destruct (Hreturns (lookup_empty _)) as [self Hself].
  exists self. split; [exact Hself | ].
  eapply Forall_impl; [exact (Hok self Hself) | ].
  intros ka [_ Hnone]. apply Hnone. apply lookup_empty.
Defined.

Lemma perform_unchanged (op : operation) (self : Basic.t) : perform op self = Ok self.
Proof.
  destruct op; unfold perform, afterwards.
  - destruct (read_only_model_config self) as [a ->]. reflexivity.
  - destruct (read_only_tokenizer_config self) as [a ->]. reflexivity.
  - destruct (read_only_get_optim_config self) as [a ->]. reflexivity.
  - destruct (read_only_get_trainer_config self) as [a ->]. reflexivity.
  - destruct (read_only_get_data_config self) as [a ->]. reflexivity.
  - destruct (read_only_get_run_config self) as [a ->]. reflexivity.
Qed.

(** C9: an instance is immutable. Each of the six operations returns and
    leaves the instance, that is every attribute, as it was, and so does any
    sequence of them; the weights are never recomputed: the data
    configuration reports the stored weights, whatever the data paths have
    become. *)
Theorem instance_immutable (ops : list operation) (self : Basic.t) :
  perform_all ops self = Ok self /\
  Basic.model_config self = Ok (PyNone, self) /\
  Basic.tokenizer_config self = Ok (PyNone, self) /\
  (exists c : OptimizerConfig, Basic.get_optim_config self = Ok (c, self)) /\
  (exists d : gmap string PyVal, Basic.get_trainer_config self = Ok (d, self)) /\
  (exists d : gmap string PyVal, Basic.get_data_config self = Ok (d, self)) /\
  (exists d : gmap string PyVal, Basic.get_run_config self = Ok (d, self)) /\
  (forall v : PyVal, exists d : gmap string PyVal,
     Basic.get_data_config (Basic.set_data_paths v self) = Ok (d, Basic.set_data_paths v self) /\
     d !! "weights" = Some (Basic.weights self)).
Proof.
  split.
  { induction ops as [ | op ops IH]; simpl.
    - reflexivity.
    - rewrite perform_unchanged. exact IH. }
  split; [reflexivity | ].
  split; [reflexivity | ].
  split; [apply read_only_get_optim_config | ].
  split; [apply read_only_get_trainer_config | ].
  split; [apply read_only_get_data_config | ].
  split; [apply read_only_get_run_config | ].
  intros v.
  destruct (get_data_config_paths_weights (Basic.set_data_paths v self)) as (d & Hd & _ & Hw).
  exists d. split; [exact Hd | exact Hw].
Qed.

(** ** Worked examples *)

Section Examples.

Example three_datasets :
  Basic.new (Some "gpt3") None (Some 5) Basic.default_measure example_cfg = Ok example_built.
Proof. vm_compute. reflexivity. Qed.

Example three_datasets_workers :
  exists d : gmap string PyVal,
    Basic.get_data_config example_built = Ok (d, example_built) /\ d !! "num_workers" = Some (PyInt 2).
Proof. run_reads. eexists. split; [reflexivity | vm_compute; reflexivity]. Qed.

Example three_datasets_devices :
  exists d : gmap string PyVal,
    Basic.get_trainer_config example_built = Ok (d, example_built) /\ d !! "devices" = Some (PyInt 8).
Proof. run_reads. eexists. split; [reflexivity | vm_compute; reflexivity]. Qed.

Example three_datasets_job_name :
  exists d : gmap string PyVal,
    Basic.get_run_config example_built = Ok (d, example_built) /\ d !! "name" = Some (PyStr "gpt3_5B").
Proof. run_reads. eexists. split; [reflexivity | vm_compute; reflexivity]. Qed.

(** [rint] rounds halves to the even neighbour and keeps the sign. *)
Example rint_ties_to_even :
  map np.rint [0.5%float; 1.5%float; 2.5%float; 12.5%float; 0.3%float; (-0.5)%float; (-2.5)%float]
    = [0%float; 2%float; 2%float; 12%float; 0%float; (-0)%float; (-2)%float].
Proof. vm_compute. reflexivity. Qed.

(** The shares of one to four and of seven datasets; three shares of 0.33
    do not add up to one. *)
Example equal_split_weights :
  map equal_split_weight [1; 2; 3; 4; 7]
    = [1%float; 0.5%float; 0.33%float; 0.25%float; 0.14%float].
Proof. vm_compute. reflexivity. Qed.

(** Up to a thousand datasets, the floating-point rounding of the code gives
    the share rounded in exact arithmetic, ties to even ([1/8] gives 0.12,
    [1/40] gives 0.02). *)
Example equal_split_weight_exact :
  map equal_split_weight (seqZ 1 1000) = map exact_split_weight (seqZ 1 1000).
Proof. vm_compute. reflexivity. Qed.

Example three_shares_below_one :
  PrimFloat.ltb
    (PrimFloat.add (PrimFloat.add (equal_split_weight 3) (equal_split_weight 3))
       (equal_split_weight 3))
    1%float = true.
Proof. vm_compute. reflexivity. Qed.

(** A number under ["data_paths"] is true and has no length: the
    constructor raises the [TypeError] of [len]. *)
Example number_as_data_paths :
  Basic.new None None None Basic.default_measure {[ "data_paths" := PyInt 5 ]}
    = Raise TypeError.
Proof. vm_compute. reflexivity. Qed.

End Examples.

(** ** Further lemmas on strings, ranges and the constructor *)

Section Support.

Lemma string_length_app (s1 s2 : string) :
  String.length (s1 +:+ s2) = (String.length s1 + String.length s2)%nat.
Proof. induction s1 as [ | c s1 IH]; simpl; [reflexivity | now rewrite IH]. Qed.

(** Cancelling a common suffix. *)
Lemma string_app_inv_tail (s1 s2 t : string) : s1 +:+ t = s2 +:+ t -> s1 = s2.
Proof.
  revert s2. induction s1 as [ | c s1 IH]; intros [ | c' s2] H; simpl in H.
  - reflexivity.
  - apply (f_equal String.length) in H.
    rewrite !string_length_app in H. simpl in H. lia.
  - apply (f_equal String.length) in H.
    rewrite !string_length_app in H. simpl in H. lia.
  - inversion H as [[Hc Hs]]. f_equal. now apply IH.
Qed.

(** Two functions that agree on the list of a range agree on each of its
    members. *)
Lemma map_seqZ_pointwise {A : Type} (f g : Z -> A) (m k : Z) :
  map f (seqZ m k) = map g (seqZ m k) ->
  forall n : Z, m <= n < m + k -> f n = g n.
Proof.
  intros Hmap n Hn.
  assert (Hlook : seqZ m k !! Z.to_nat (n - m) = Some n).
  { apply lookup_seqZ. lia. }
  apply (f_equal (fun l => l !! Z.to_nat (n - m))) in Hmap.
  rewrite !list_lookup_fmap, Hlook in Hmap. simpl in Hmap.
  now inversion Hmap.
Qed.

(** [_get_data_weights] reads [data_paths] and nothing else. *)
Lemma get_data_weights_reads_data_paths (s s' : Basic.t) (w : PyVal) :
  Basic.data_paths s' = Basic.data_paths s ->
  Basic._get_data_weights s = Ok (w, s) ->
  Basic._get_data_weights s' = Ok (w, s').
Proof.
  intros Hpaths.
  unfold Basic._get_data_weights, Basic.bind, Basic.getattr, Basic.call, Basic.ret.
  rewrite Hpaths.
  destruct (negb (truthy (Basic.data_paths s))).
  - intros H. now inversion H.
  - destruct (len (Basic.data_paths s)) as [n | e]; [ | discriminate].
    destruct (int_truediv 1 n) as [x | e]; [ | discriminate].
    intros H. now inversion H.
Qed.

(** What a returned instance looks like: the attributes of [assigned], and
    weights that are [None] for a false [data_paths] and the equal shares for
    one of length [n >= 1]. *)
Lemma new_cases (name : option string) (version size : option Z) (measure : option string)
    (cfg : gmap string PyVal) (self : Basic.t) :
  Basic.new name version size measure cfg = Ok self ->
  self = assigned name version size measure cfg (Basic.weights self) /\
  ((truthy (dict_get cfg "data_paths") = false /\ Basic.weights self = PyNone) \/
   (exists n : Z,
      1 <= n /\ len (dict_get cfg "data_paths") = Ok n /\
      Basic.weights self = PyList (list_mul (PyFloat (equal_split_weight n)) n))).
Proof.
  intros Hnew. split; [now apply new_assigned | ].
  destruct (truthy (dict_get cfg "data_paths")) eqn:Ht.
  - right. destruct (len (dict_get cfg "data_paths")) as [n | e] eqn:Hlen.
    + assert (Hn : 1 <= n).
      { pose proof (len_nonneg _ _ Hlen). pose proof (truthy_len _ _ Hlen) as Hz.
        rewrite Ht in Hz. destruct (Z.eqb_spec n 0); [discriminate | lia]. }
      exists n. split; [exact Hn | ]. split; [reflexivity | ].
      rewrite (new_sized name version size measure cfg n Hlen Hn) in Hnew.
      inversion Hnew. reflexivity.
    + exfalso.
      pose proof (get_data_weights_unsized
                    (assigned name version size measure cfg PyNone) e Ht Hlen) as Hraise.
      rewrite new_unfold, Hraise in Hnew. discriminate.
  - left. split; [reflexivity | ].
    rewrite (new_falsy name version size measure cfg Ht) in Hnew.
    inversion Hnew. reflexivity.
Qed.

End Support.

(** ** The trainer, data and run configurations of a constructed instance *)

(** X1: the trainer configuration of any instance has exactly fifteen keys:
    eleven constants (gpu accelerator, bf16 precision, no logger, no
    checkpointing, no distributed sampler, no epoch limit, logging every
    step, one validation and one test batch, no gradient accumulation,
    gradient clipping at 1.0) and the instance's node count, gpu count and
    step count, the last under two keys. *)
Theorem trainer_config_fields (self : Basic.t) :
  exists d : gmap string PyVal,
    Basic.get_trainer_config self = Ok (d, self) /\
    d !! "accelerator" = Some (PyStr "gpu") /\
    d !! "precision" = Some (PyStr "bf16") /\
    d !! "logger" = Some (PyBool false) /\
    d !! "enable_checkpointing" = Some (PyBool false) /\
    d !! "use_distributed_sampler" = Some (PyBool false) /\
    d !! "max_epochs" = Some PyNone /\
    d !! "log_every_n_steps" = Some (PyInt 1) /\
    d !! "limit_val_batches" = Some (PyInt 1) /\
    d !! "limit_test_batches" = Some (PyInt 1) /\
    d !! "accumulate_grad_batches" = Some (PyInt 1) /\
    d !! "gradient_clip_val" = Some (PyFloat 1%float) /\
    d !! "num_nodes" = Some (Basic.num_nodes self) /\
    d !! "devices" = Some (Basic.num_gpus self) /\
    d !! "max_steps" = Some (Basic.max_steps self) /\
    d !! "val_check_interval" = Some (Basic.max_steps self) /\
    dom d = ({[ "accelerator"; "precision"; "logger"; "enable_checkpointing";
                "use_distributed_sampler"; "max_epochs"; "log_every_n_steps";
                "limit_val_batches"; "limit_test_batches"; "accumulate_grad_batches";
                "gradient_clip_val"; "num_nodes"; "devices"; "max_steps";
                "val_check_interval" ]} : gset string).
Proof.
  run_reads. eexists. split; [reflexivity | ].
  repeat split; reflexivity.
Qed.

(** X2: from [cfg] to the trainer configuration. On an instance the
    constructor returned, the trainer configuration has [cfg.get] of
    ["num_nodes"] under ["num_nodes"], of ["gpu_count"] under ["devices"],
    and of ["max_steps_per_run"] under both ["max_steps"] and
    ["val_check_interval"] ([None] for a key that [cfg] lacks). *)
Theorem trainer_config_from_cfg
    (name : option string) (version size : option Z) (measure : option string)
    (cfg : gmap string PyVal) (self : Basic.t) :
  Basic.new name version size measure cfg = Ok self ->
  exists d : gmap string PyVal,
    Basic.get_trainer_config self = Ok (d, self) /\
    d !! "num_nodes" = Some (dict_get cfg "num_nodes") /\
    d !! "devices" = Some (dict_get cfg "gpu_count") /\
    d !! "max_steps" = Some (dict_get cfg "max_steps_per_run") /\
    d !! "val_check_interval" = Some (dict_get cfg "max_steps_per_run").
Proof.
  intros Hnew. apply new_assigned in Hnew. rewrite Hnew.
  run_reads. eexists. split; [reflexivity | ].
  repeat split; reflexivity.
Qed.

Lemma trainer_config_from_cfg_witness :
  Basic.new (Some "gpt3") None (Some 5) Basic.default_measure example_cfg = Ok example_built /\
  exists d : gmap string PyVal,
    Basic.get_trainer_config example_built = Ok (d, example_built) /\
    d !! "num_nodes" = Some (dict_get example_cfg "num_nodes") /\
    d !! "devices" = Some (dict_get example_cfg "gpu_count") /\
    d !! "max_steps" = Some (dict_get example_cfg "max_steps_per_run") /\
    d !! "val_check_interval" = Some (dict_get example_cfg "max_steps_per_run").
Proof.
  assert (H : Basic.new (Some "gpt3") None (Some 5) Basic.default_measure example_cfg
              = Ok example_built) by (vm_compute; reflexivity).
  split; [exact H | ].
  exact (trainer_config_from_cfg (Some "gpt3") None (Some 5) Basic.default_measure
           example_cfg example_built H).
Defined.

(** X3: from [cfg] to the data configuration. On an instance the constructor
    returned, the data configuration has [cfg.get] of ["data_paths"] under
    ["paths"], of ["seq_length"] and of ["global_batch_size"] under their own
    names, and under ["weights"] the stored weights, which are what
    [_get_data_weights] gives for these paths. *)
Theorem data_config_from_cfg
    (name : option string) (version size : option Z) (measure : option string)
    (cfg : gmap string PyVal) (self : Basic.t) :
  Basic.new name version size measure cfg = Ok self ->
  exists (d : gmap string PyVal) (w : PyVal),
    Basic.get_data_config self = Ok (d, self) /\
    d !! "paths" = Some (dict_get cfg "data_paths") /\
    d !! "seq_length" = Some (dict_get cfg "seq_length") /\
    d !! "global_batch_size" = Some (dict_get cfg "global_batch_size") /\
    d !! "weights" = Some w /\
    Basic._get_data_weights self = Ok (w, self).
Proof.
  intros Hnew.
  assert (Hw : Basic._get_data_weights self = Ok (Basic.weights self, self)).
  { pose proof Hnew as Hnew'. rewrite new_unfold in Hnew'.
    destruct (Basic._get_data_weights (assigned name version size measure cfg PyNone))
      as [[w s] | e] eqn:Hrun; [ | discriminate].
    pose proof (get_data_weights_frame _ _ _ Hrun) as ->.
    inversion Hnew' as [Hself].
    apply (get_data_weights_reads_data_paths
             (assigned name version size measure cfg PyNone)); [reflexivity | ].
    exact Hrun. }
  exists (dict [("paths", dict_get cfg "data_paths"); ("weights", Basic.weights self);
                ("seq_length", dict_get cfg "seq_length");
                ("global_batch_size", dict_get cfg "global_batch_size");
                ("num_workers", PyInt 2); ("split", PyStr "99990,8,2");
                ("index_mapping_dir", PyNone)]), (Basic.weights self).
  split.
  { apply new_assigned in Hnew. rewrite Hnew at 1 3. reflexivity. }
  repeat split; try reflexivity. exact Hw.
Qed.

Lemma data_config_from_cfg_witness :
  Basic.new (Some "gpt3") None (Some 5) Basic.default_measure example_cfg = Ok example_built /\
  exists (d : gmap string PyVal) (w : PyVal),
    Basic.get_data_config example_built = Ok (d, example_built) /\
    d !! "paths" = Some (dict_get example_cfg "data_paths") /\
    d !! "seq_length" = Some (dict_get example_cfg "seq_length") /\
    d !! "global_batch_size" = Some (dict_get example_cfg "global_batch_size") /\
    d !! "weights" = Some w /\
    Basic._get_data_weights example_built = Ok (w, example_built).
Proof.
  assert (H : Basic.new (Some "gpt3") None (Some 5) Basic.default_measure example_cfg
              = Ok example_built) by (vm_compute; reflexivity).
  split; [exact H | ].
  exact (data_config_from_cfg (Some "gpt3") None (Some 5) Basic.default_measure
           example_cfg example_built H).
Defined.

(** X4: from the constructor's arguments to the run configuration. On an
    instance the constructor returned, the run configuration has exactly
    three keys; the job name is made of the [name], [size] and [measure]
    arguments alone, whatever [version] and [cfg] are, and an argument left
    at [None] is written [None]: without a name and a size the job name
    starts with [None_None]. *)
Theorem run_config_from_arguments
    (name : option string) (version size : option Z) (measure : option string)
    (cfg : gmap string PyVal) (self : Basic.t) :
  Basic.new name version size measure cfg = Ok self ->
  exists d : gmap string PyVal,
    Basic.get_run_config self = Ok (d, self) /\
    d !! "name" = Some (PyStr (format name +:+ "_" +:+ format size +:+ format measure)) /\
    (name = None -> size = None ->
     d !! "name" = Some (PyStr ("None_None" +:+ format measure))) /\
    d !! "results_dir" = Some PyNone /\
    d !! "time_limit" = Some (PyStr "0-00:30:00") /\
    dom d = ({[ "name"; "results_dir"; "time_limit" ]} : gset string).
Proof.
  intros Hnew. apply new_assigned in Hnew. rewrite Hnew.
  run_reads. eexists. split; [reflexivity | ].
  split; [reflexivity | ].
  split; [intros -> ->; reflexivity | ].
  repeat split; reflexivity.
Qed.

Lemma run_config_from_arguments_witness :
  Basic.new (Some "gpt3") None (Some 5) Basic.default_measure example_cfg = Ok example_built /\
  exists d : gmap string PyVal,
    Basic.get_run_config example_built = Ok (d, example_built) /\
    d !! "name" = Some (PyStr "gpt3_5B").
Proof.
  assert (H : Basic.new (Some "gpt3") None (Some 5) Basic.default_measure example_cfg
              = Ok example_built) by (vm_compute; reflexivity).
  split; [exact H | ].
  destruct (run_config_from_arguments (Some "gpt3") None (Some 5) Basic.default_measure
              example_cfg example_built H) as (d & Hd & Hname & _).
  exists d. split; [exact Hd | exact Hname].
Defined.

(** X5: when the constructor fails. It raises exactly when the value under
    ["data_paths"] is true but has no length, that is [True], a non-zero
    integer or a non-zero float, and what it raises then is the [TypeError]
    of [len]; on every other [cfg] it returns. *)
Theorem constructor_raises_iff
    (name : option string) (version size : option Z) (measure : option string)
    (cfg : gmap string PyVal) (e : PyExc) :
  Basic.new name version size measure cfg = Raise e <->
  e = TypeError /\
  (cfg !! "data_paths" = Some (PyBool true) \/
   (exists z : Z, cfg !! "data_paths" = Some (PyInt z) /\ z <> 0) \/
   (exists x : float, cfg !! "data_paths" = Some (PyFloat x) /\ PrimFloat.eqb x 0%float = false)).
Proof.
  split.
  - intros H. apply new_raises_unsized in H. destruct H as [Ht Hlen].
    unfold dict_get in Ht, Hlen.
    destruct (cfg !! "data_paths") as [[ | b | z | x | s | l] | ];
      simpl in Ht, Hlen; try discriminate; inversion Hlen; subst e.
    + split; [reflexivity | ]. left. now destruct b.
    + split; [reflexivity | ]. right. left. exists z. split; [reflexivity | ].
      destruct (Z.eqb_spec z 0); [discriminate | assumption].
    + split; [reflexivity | ]. right. right. exists x. split; [reflexivity | ].
      now destruct (PrimFloat.eqb x 0%float).
  - intros [-> Hv]. rewrite new_unfold.
    rewrite (get_data_weights_unsized
               (assigned name version size measure cfg PyNone) TypeError); [reflexivity | | ];
      simpl; unfold dict_get;
      destruct Hv as [-> | [(z & -> & Hz) | (x & -> & Hx)]]; simpl; try reflexivity.
    + destruct (Z.eqb_spec z 0); [contradiction | reflexivity].
    + now rewrite Hx.
Qed.

(** X6: the constructor stores its arguments as they are. A returned
    instance has the [name], [version], [size] and [measure] it was given,
    and [cfg] itself under [self.cfg], with every key of it, recognized or
    not. *)
Theorem constructor_stores_arguments
    (name : option string) (version size : option Z) (measure : option string)
    (cfg : gmap string PyVal) (self : Basic.t) :
  Basic.new name version size measure cfg = Ok self ->
  Basic.name self = name /\
  Basic.version self = version /\
  Basic.size self = size /\
  Basic.measure self = measure /\
  Basic.cfg self = cfg.
Proof.
  intros Hnew. apply new_assigned in Hnew. rewrite Hnew.
  repeat split; reflexivity.
Qed.

Lemma constructor_stores_arguments_witness :
  Basic.new (Some "gpt3") None (Some 5) Basic.default_measure example_cfg = Ok example_built /\
  Basic.name example_built = Some "gpt3" /\
  Basic.version example_built = None /\
  Basic.size example_built = Some 5 /\
  Basic.measure example_built = Basic.default_measure /\
  Basic.cfg example_built = example_cfg.
Proof.
  assert (H : Basic.new (Some "gpt3") None (Some 5) Basic.default_measure example_cfg
              = Ok example_built) by (vm_compute; reflexivity).
  split; [exact H | ].
  exact (constructor_stores_arguments (Some "gpt3") None (Some 5) Basic.default_measure
           example_cfg example_built H).
Defined.

(** X7: the weights of a constructed instance fit its data paths. Computing
    the weights again gives the stored ones; they are [None] exactly when the
    data paths are false (absent, [None], empty); otherwise they are a
    non-empty list, as long as the data paths, of one and the same float. *)
Theorem stored_weights_fit_data_paths
    (name : option string) (version size : option Z) (measure : option string)
    (cfg : gmap string PyVal) (self : Basic.t) :
  Basic.new name version size measure cfg = Ok self ->
  Basic._get_data_weights self = Ok (Basic.weights self, self) /\
  (Basic.weights self = PyNone <-> truthy (Basic.data_paths self) = false) /\
  (truthy (Basic.data_paths self) = true ->
   exists (x : float) (ws : list PyVal),
     Basic.weights self = PyList ws /\
     ws <> [] /\
     len (Basic.data_paths self) = Ok (Z.of_nat (length ws)) /\
     Forall (fun w => w = PyFloat x) ws).
Proof.
  intros Hnew. destruct (new_cases _ _ _ _ _ _ Hnew) as [Hself Hcases].
  assert (Hpaths : Basic.data_paths self = dict_get cfg "data_paths").
  { rewrite Hself. reflexivity. }
  rewrite Hpaths.
  destruct Hcases as [[Ht Hw] | (n & Hn & Hlen & Hw)].
  - split; [ | split].
    + rewrite Hw. apply get_data_weights_falsy. now rewrite Hpaths.
    + split; [intros _; exact Ht | intros _; exact Hw].
    + rewrite Ht. discriminate.
  - assert (Ht : truthy (dict_get cfg "data_paths") = true)
      by exact (truthy_len_pos _ _ Hlen Hn).
    split; [ | split].
    + rewrite Hw. apply get_data_weights_sized; [now rewrite Hpaths | exact Hn].
    + rewrite Hw, Ht. split; discriminate.
    + intros _. exists (equal_split_weight n), (list_mul (PyFloat (equal_split_weight n)) n).
      split; [exact Hw | ].
      split.
      { intros Hnil. apply (f_equal (fun l => Z.of_nat (length l))) in Hnil.
        rewrite list_mul_length in Hnil by lia. simpl in Hnil. lia. }
      split; [rewrite list_mul_length by lia; exact Hlen | apply list_mul_Forall].
Qed.

Lemma stored_weights_fit_data_paths_witness :
  Basic.new (Some "gpt3") None (Some 5) Basic.default_measure example_cfg = Ok example_built /\
  Basic._get_data_weights example_built = Ok (Basic.weights example_built, example_built).
Proof.
  assert (H : Basic.new (Some "gpt3") None (Some 5) Basic.default_measure example_cfg
              = Ok example_built) by (vm_compute; reflexivity).
  split; [exact H | ].
  exact (proj1 (stored_weights_fit_data_paths (Some "gpt3") None (Some 5)
                  Basic.default_measure example_cfg example_built H)).
Defined.

(** ** Job names and the values of the weights *)

(** The job name in a run configuration. *)
Lemma run_config_name (self : Basic.t) (d : gmap string PyVal) :
  Basic.get_run_config self = Ok (d, self) ->
  d !! "name" =
    Some (PyStr (format (Basic.name self) +:+ "_" +:+
                 format (Basic.size self) +:+ format (Basic.measure self))).
Proof.
  run_reads. intros H. inversion H as [Hd]. reflexivity.
Qed.

(** X8: for one model name and one measure, the job name tells the size:
    two instances with the same name and measure and different integer sizes
    get different job names. *)
Theorem distinct_sizes_distinct_job_names
    (self1 self2 : Basic.t) (z1 z2 : Z) (d1 d2 : gmap string PyVal) :
  Basic.name self1 = Basic.name self2 ->
  Basic.measure self1 = Basic.measure self2 ->
  Basic.size self1 = Some z1 ->
  Basic.size self2 = Some z2 ->
  Basic.get_run_config self1 = Ok (d1, self1) ->
  Basic.get_run_config self2 = Ok (d2, self2) ->
  z1 <> z2 ->
  d1 !! "name" <> d2 !! "name".
Proof.
  intros Hname Hmeasure Hz1 Hz2 Hd1 Hd2 Hne Heq. apply Hne.
  rewrite (run_config_name _ _ Hd1), (run_config_name _ _ Hd2) in Heq.
  rewrite Hname, Hmeasure, Hz1, Hz2 in Heq.
  inversion Heq as [Hstr]. clear Heq.
  apply (inj (String.append _)) in Hstr.
  apply (inj (String.append _)) in Hstr.
  apply string_app_inv_tail in Hstr.
  unfold format, format_optional, format, format_int in Hstr.
  now apply (inj pretty) in Hstr.
Qed.

Lemma distinct_sizes_distinct_job_names_witness :
  exists d1 d2 : gmap string PyVal,
    Basic.get_run_config (assigned (Some "gpt3") None (Some 5) (Some "B") ∅ PyNone)
      = Ok (d1, assigned (Some "gpt3") None (Some 5) (Some "B") ∅ PyNone) /\
    Basic.get_run_config (assigned (Some "gpt3") None (Some 40) (Some "B") ∅ PyNone)
      = Ok (d2, assigned (Some "gpt3") None (Some 40) (Some "B") ∅ PyNone) /\
    d1 !! "name" <> d2 !! "name".
Proof.
  destruct (read_only_get_run_config (assigned (Some "gpt3") None (Some 5) (Some "B") ∅ PyNone))
    as [d1 Hd1].
  destruct (read_only_get_run_config (assigned (Some "gpt3") None (Some 40) (Some "B") ∅ PyNone))
    as [d2 Hd2].
  exists d1, d2. split; [exact Hd1 | ]. split; [exact Hd2 | ].
  apply (distinct_sizes_distinct_job_names
           (assigned (Some "gpt3") None (Some 5) (Some "B") ∅ PyNone)
           (assigned (Some "gpt3") None (Some 40) (Some "B") ∅ PyNone)
           5 40 d1 d2 eq_refl eq_refl eq_refl eq_refl Hd1 Hd2).
  discriminate.
Defined.

(** The shares in numbers: positive and at most one up to 199 datasets, zero
    from 200 on (the rounding of [100/n] to an integer gives 0 from
    [n = 200], where the tie [0.5] goes to the even 0). *)
Lemma equal_split_weight_below_200 (n : Z) :
  1 <= n < 200 ->
  PrimFloat.ltb 0%float (equal_split_weight n) = true /\
  PrimFloat.leb (equal_split_weight n) 1%float = true.
Proof.
  intros Hn. apply andb_prop.
  apply (map_seqZ_pointwise
           (fun k => PrimFloat.ltb 0%float (equal_split_weight k)
                     && PrimFloat.leb (equal_split_weight k) 1%float)
           (fun _ => true) 1 199); [vm_compute; reflexivity | lia].
Qed.

Lemma equal_split_weight_from_200 (n : Z) :
  200 <= n <= 10000 -> equal_split_weight n = 0%float.
Proof.
  intros Hn.
  apply (map_seqZ_pointwise equal_split_weight (fun _ => 0%float) 200 9801);
    [vm_compute; reflexivity | lia].
Qed.

Lemma equal_split_weight_exact_below_1000 (n : Z) :
  1 <= n <= 1000 -> equal_split_weight n = exact_split_weight n.
Proof.
  intros Hn.
  apply (map_seqZ_pointwise equal_split_weight exact_split_weight 1 1000);
    [exact equal_split_weight_exact | lia].
Qed.

(** X9: up to a thousand data paths, each weight the constructor stores is
    the share [1/n] rounded to hundredths in exact arithmetic, ties to even
    (the float nearest to that decimal): the floating-point steps of the
    code lose nothing. *)
Theorem weights_are_exactly_rounded_shares
    (name : option string) (version size : option Z) (measure : option string)
    (cfg : gmap string PyVal) (v : PyVal) (n : Z) :
  cfg !! "data_paths" = Some v -> len v = Ok n -> 1 <= n <= 1000 ->
  exists self : Basic.t,
    Basic.new name version size measure cfg = Ok self /\
    Basic.weights self =
      PyList (replicate (Z.to_nat n)
                (PyFloat (PrimFloat.div (float_of_Z (nearest_even_div 100 n))
                                        (float_of_Z 100)))).
Proof.
  intros Hcfg Hlen Hn. apply dict_get_present in Hcfg.
  assert (Hlen' : len (dict_get cfg "data_paths") = Ok n) by now rewrite Hcfg.
  eexists. split; [apply (new_sized name version size measure cfg n Hlen'); lia | ].
  simpl. unfold list_mul. rewrite equal_split_weight_exact_below_1000 by lia.
  reflexivity.
Qed.

Lemma weights_are_exactly_rounded_shares_witness :
  exists self : Basic.t,
    Basic.new None None None Basic.default_measure
      {[ "data_paths" := PyList [PyStr "a"; PyStr "b"; PyStr "c"] ]} = Ok self /\
    Basic.weights self =
      PyList (replicate (Z.to_nat 3)
                (PyFloat (PrimFloat.div (float_of_Z (nearest_even_div 100 3))
                                        (float_of_Z 100)))).
Proof.
  apply (weights_are_exactly_rounded_shares None None None Basic.default_measure
           {[ "data_paths" := PyList [PyStr "a"; PyStr "b"; PyStr "c"] ]}
           (PyList [PyStr "a"; PyStr "b"; PyStr "c"]) 3).
  - reflexivity.
  - reflexivity.
  - lia.
Defined.

(** X10: the weights vanish from two hundred data paths on. For [n] data
    paths, [n] up to ten thousand, the constructor stores [n] times one
    float: positive and at most one when [n < 200], and [0.0] when
    [n >= 200]. *)
Theorem weights_vanish_from_200
    (name : option string) (version size : option Z) (measure : option string)
    (cfg : gmap string PyVal) (v : PyVal) (n : Z) :
  cfg !! "data_paths" = Some v -> len v = Ok n -> 1 <= n <= 10000 ->
  exists (self : Basic.t) (x : float),
    Basic.new name version size measure cfg = Ok self /\
    Basic.weights self = PyList (replicate (Z.to_nat n) (PyFloat x)) /\
    (n < 200 -> PrimFloat.ltb 0%float x = true /\ PrimFloat.leb x 1%float = true) /\
    (200 <= n -> x = 0%float).
Proof.
  intros Hcfg Hlen Hn. apply dict_get_present in Hcfg.
  assert (Hlen' : len (dict_get cfg "data_paths") = Ok n) by now rewrite Hcfg.
  eexists. exists (equal_split_weight n).
  split; [apply (new_sized name version size measure cfg n Hlen'); lia | ].
  split; [reflexivity | ].
  split.
  - intros Hlt. apply equal_split_weight_below_200. lia.
  - intros Hge. apply equal_split_weight_from_200. lia.
Qed.

Lemma weights_vanish_from_200_witness :
  exists (self : Basic.t) (x : float),
    Basic.new None None None Basic.default_measure
      {[ "data_paths" := PyList (replicate 200 (PyStr "a")) ]} = Ok self /\
    Basic.weights self = PyList (replicate (Z.to_nat 200) (PyFloat x)) /\
    (200 < 200 -> PrimFloat.ltb 0%float x = true /\ PrimFloat.leb x 1%float = true) /\
    (200 <= 200 -> x = 0%float).
Proof.
  apply (weights_vanish_from_200 None None None Basic.default_measure
           {[ "data_paths" := PyList (replicate 200 (PyStr "a")) ]}
           (PyList (replicate 200 (PyStr "a"))) 200).
  - reflexivity.
  - vm_compute. reflexivity.
  - lia.
Defined.

(** ** Keys of [cfg] that the class does not know *)

(** X11: only the seven recognized keys of [cfg] matter. Two configurations
    that agree on them make the constructor fail alike, with the same
    exception, or return instances with the same weights and the same
    trainer, data and run configurations: whatever else [cfg] holds is
    ignored. *)
Theorem unrecognized_keys_ignored
    (name : option string) (version size : option Z) (measure : option string)
    (cfg cfg' : gmap string PyVal) :
  Forall (fun ka : string * (Basic.t -> PyVal) => cfg !! ka.1 = cfg' !! ka.1) recognized_keys ->
  match Basic.new name version size measure cfg, Basic.new name version size measure cfg' with
  | Ok self, Ok self' =>
      Basic.weights self = Basic.weights self' /\
      (forall d, Basic.get_trainer_config self = Ok (d, self) ->
                 Basic.get_trainer_config self' = Ok (d, self')) /\
      (forall d, Basic.get_data_config self = Ok (d, self) ->
                 Basic.get_data_config self' = Ok (d, self')) /\
      (forall d, Basic.get_run_config self = Ok (d, self) ->
                 Basic.get_run_config self' = Ok (d, self'))
  | Raise e, Raise e' => e = e'
  | Ok _, Raise _ | Raise _, Ok _ => False
  end.
Proof.
  intros Hkeys.
  assert (Hget : Forall (fun ka : string * (Basic.t -> PyVal) =>
                           dict_get cfg ka.1 = dict_get cfg' ka.1) recognized_keys).
  { eapply Forall_impl; [exact Hkeys | ]. intros ka H. unfold dict_get. now rewrite H. }
  clear Hkeys. unfold recognized_keys in Hget.
  rewrite !Forall_cons in Hget.
  destruct Hget as (K1 & K2 & K3 & K4 & K5 & K6 & K7 & _). simpl in *.
  assert (Hsame : forall w,
             Basic._get_data_weights (assigned name version size measure cfg PyNone)
               = Ok (w, assigned name version size measure cfg PyNone) ->
             Basic._get_data_weights (assigned name version size measure cfg' PyNone)
               = Ok (w, assigned name version size measure cfg' PyNone)).
  { intros w. apply get_data_weights_reads_data_paths. simpl. congruence. }
  destruct (Basic.new name version size measure cfg) as [self | e] eqn:Hnew.
  - rewrite new_unfold in Hnew.
    destruct (Basic._get_data_weights (assigned name version size measure cfg PyNone))
      as [[w s] | e] eqn:Hrun; [ | discriminate].
    pose proof (get_data_weights_frame _ _ _ Hrun) as ->.
    inversion Hnew as [Hself]. clear Hnew. subst self.
    rewrite (new_returns name version size measure cfg' w (Hsame w eq_refl)).
    split; [reflexivity | ].
    unfold assigned. rewrite <- K1, <- K2, <- K3, <- K4, <- K5, <- K7.
    run_reads. simpl.
    repeat split; intros d Hd; inversion Hd; reflexivity.
  - apply new_raises_unsized in Hnew. destruct Hnew as [Ht Hlen].
    pose proof (get_data_weights_unsized
                  (assigned name version size measure cfg' PyNone) e) as Hraise.
    simpl in Hraise.
    rewrite new_unfold, Hraise; [reflexivity | congruence | congruence].
Qed.

Lemma unrecognized_keys_ignored_witness :
  Forall (fun ka : string * (Basic.t -> PyVal) =>
            example_cfg !! ka.1 = (<["comment" := PyStr "draft"]> example_cfg) !! ka.1)
    recognized_keys /\
  match Basic.new (Some "gpt3") None (Some 5) (Some "B") example_cfg,
        Basic.new (Some "gpt3") None (Some 5) (Some "B")
          (<["comment" := PyStr "draft"]> example_cfg) with
  | Ok self, Ok self' =>
      Basic.weights self = Basic.weights self' /\
      (forall d, Basic.get_trainer_config self = Ok (d, self) ->
                 Basic.get_trainer_config self' = Ok (d, self')) /\
      (forall d, Basic.get_data_config self = Ok (d, self) ->
                 Basic.get_data_config self' = Ok (d, self')) /\
      (forall d, Basic.get_run_config self = Ok (d, self) ->
                 Basic.get_run_config self' = Ok (d, self'))
  | Raise e, Raise e' => e = e'
  | Ok _, Raise _ | Raise _, Ok _ => False
  end.
Proof.
  assert (H : Forall (fun ka : string * (Basic.t -> PyVal) =>
                        example_cfg !! ka.1
                        = (<["comment" := PyStr "draft"]> example_cfg) !! ka.1)
                recognized_keys).
  { unfold recognized_keys. repeat constructor; vm_compute; reflexivity. }
  split; [exact H | ].
  exact (unrecognized_keys_ignored (Some "gpt3") None (Some 5) (Some "B") example_cfg
           (<["comment" := PyStr "draft"]> example_cfg) H).
Defined.
